(** * PVR settings cache (xbmc/pvr/PVRSettings.cpp)

    A shallow embedding of [CPVRSettings]: the map [m_settings] of cloned
    settings, its maintenance by [Init], [OnSettingsLoaded] and
    [OnSettingChanged], the typed accessors, and the two static callbacks
    [MarginTimeFiller] and [IsSettingVisible].

    The critical section [m_critSection] serialises every access to
    [m_settings]; the embedding is sequential, each member function is one
    state transformer, and the lock does not appear. *)

From Stdlib Require Import ZArith.
From stdpp Require Import gmap strings list fin_maps sorting.

#[local] Set Warnings "-clear-no-such-hyp".

Local Open Scope Z_scope.
Local Open Scope string_scope.

(** ** Settings *)

Module SettingType.
(** Modelled from the spec: the declared kind of a setting value object
    (settings/lib/Setting.h is not among the sources); the three kinds
    the cache dispatches on. *)
Inductive t := Boolean | Integer | String.

#[global] Instance eq_dec : EqDecision t.
Proof. solve_decision. Defined.
End SettingType.

(** Modelled from the spec: the setting value object, polymorphic over the
    boolean, integer and string kinds, with its identifier.  A constructor is
    the dynamic class of the object.  The value of a [CSettingInt] is an
    [int]; the cache stores and returns it and never computes with it. *)
Inductive CSetting :=
| CSettingBool (id : string) (value : bool)
| CSettingInt (id : string) (value : Z)
| CSettingString (id : string) (value : string).

#[global] Instance CSetting_eq_dec : EqDecision CSetting.
Proof. solve_decision. Defined.

Definition GetId (s : CSetting) : string :=
  match s with
  | CSettingBool id _ | CSettingInt id _ | CSettingString id _ => id
  end.

Definition GetType (s : CSetting) : SettingType.t :=
  match s with
  | CSettingBool _ _ => SettingType.Boolean
  | CSettingInt _ _ => SettingType.Integer
  | CSettingString _ _ => SettingType.String
  end.

(** Modelled from the spec: [Clone(id)] yields an owned copy of the same kind
    and value under the identifier [id]. *)
Definition Clone (id : string) (s : CSetting) : CSetting :=
  match s with
  | CSettingBool _ v => CSettingBool id v
  | CSettingInt _ v => CSettingInt id v
  | CSettingString _ v => CSettingString id v
  end.

(** [std::dynamic_pointer_cast<const CSettingBool>(p)] followed by
    [GetValue()] on a non-null result, and likewise for the other classes. *)
Definition as_CSettingBool (s : CSetting) : option bool :=
  match s with CSettingBool _ v => Some v | _ => None end.

Definition as_CSettingInt (s : CSetting) : option Z :=
  match s with CSettingInt _ v => Some v | _ => None end.

Definition as_CSettingString (s : CSetting) : option string :=
  match s with CSettingString _ v => Some v | _ => None end.

(** A [SettingPtr] or [std::shared_ptr<const CSetting>] may be null. *)
Abbreviation SettingPtr := (option CSetting).

(** ** State *)

(** What the cache reaches through [CServiceBroker] and [CLog]: the settings
    registry, the error log, and the registrations made by the constructor.
    [lookups] records the identifiers passed to [GetSetting], oldest first. *)
Record World := mkWorld {
  settings : gmap string CSetting;
  log : list string;
  lookups : list string;
  settingsHandler : bool;
  callback : option (gset string)
}.

Record State := mkState {
  m_settings : gmap string CSetting;
  world : World
}.

Definition M (A : Type) : Type := State → A * State.

#[global] Instance M_ret : MRet M := λ A a st, (a, st).

#[global] Instance M_bind : MBind M :=
  λ A B k c st, let '(a, st') := c st in k a st'.

Definition exec {A} (c : M A) (st : State) : State := (c st).2.
Definition eval {A} (c : M A) (st : State) : A := (c st).1.

Definition with_world (f : World → World) : M unit :=
  λ st, (tt, mkState (m_settings st) (f (world st))).

Definition with_m_settings
    (f : gmap string CSetting → gmap string CSetting) : M unit :=
  λ st, (tt, mkState (f (m_settings st)) (world st)).

Definition get_m_settings : M (gmap string CSetting) :=
  λ st, (m_settings st, st).

(** [CServiceBroker::GetSettings().GetSetting(name)] *)
Definition GetSetting (name : string) : M SettingPtr :=
  λ st,
    let w := world st in
    (settings w !! name,
     mkState (m_settings st)
       (mkWorld (settings w) (log w) ((lookups w ++ [name])%list)
          (settingsHandler w) (callback w))).

(** [CLog::LogF(LOGERROR, ...)] *)
Definition LogF (msg : string) : M unit :=
  with_world (λ w,
    mkWorld (settings w) ((log w ++ [msg])%list) (lookups w)
      (settingsHandler w) (callback w)).

Definition RegisterSettingsHandler : M unit :=
  with_world (λ w,
    mkWorld (settings w) (log w) (lookups w) true (callback w)).

Definition UnregisterSettingsHandler : M unit :=
  with_world (λ w,
    mkWorld (settings w) (log w) (lookups w) false (callback w)).

Definition RegisterCallback (settingNames : gset string) : M unit :=
  with_world (λ w,
    mkWorld (settings w) (log w) (lookups w) (settingsHandler w)
      (Some settingNames)).

Definition UnregisterCallback : M unit :=
  with_world (λ w,
    mkWorld (settings w) (log w) (lookups w) (settingsHandler w) None).

(** ** Containers *)

(** A range-for over a [std::set<std::string>] visits the elements in
    ascending order. *)
Definition set_begin_end (s : gset string) : list string :=
  merge_sort (λ a b, String.leb a b) (elements s).

(** [std::map::insert] keeps an entry that is already present. *)
Definition map_insert (k : string) (v : CSetting)
    (m : gmap string CSetting) : gmap string CSetting :=
  match m !! k with
  | Some _ => m
  | None => <[k := v]> m
  end.

Fixpoint for_each {A} (l : list A) (body : A → M unit) : M unit :=
  match l with
  | [] => mret tt
  | x :: l' => body x ;; for_each l' body
  end.

(** ** CPVRSettings *)

(** What [%s] prints for [s.c_str()]: the bytes of [s] before its first NUL
    byte, all of [s] when it has none. *)
Fixpoint c_str (s : string) : string :=
  match s with
  | EmptyString => EmptyString
  | String c s' =>
      if decide (c = Ascii.zero) then EmptyString else String c (c_str s')
  end.

(** ["Unknown PVR setting '%s'"] formatted with [settingName.c_str()]. *)
Definition unknown_setting_msg (settingName : string) : string :=
  "Unknown PVR setting '" +:+ c_str settingName +:+ "'".

(** ["PVR setting '%s' not found or wrong type given"] formatted with
    [settingName.c_str()]. *)
Definition wrong_setting_msg (settingName : string) : string :=
  "PVR setting '" +:+ c_str settingName
  +:+ "' not found or wrong type given".

Definition Init_body (settingName : string) : M unit :=
  setting ← GetSetting settingName;
  match setting with
  | None => LogF (unknown_setting_msg settingName)
  | Some setting =>
      with_m_settings (map_insert settingName (Clone settingName setting))
  end.

Definition Init (settingNames : gset string) : M unit :=
  for_each (set_begin_end settingNames) Init_body.

(** The constructor runs on a freshly built object: [m_settings] is empty. *)
Definition CPVRSettings_ctor (settingNames : gset string) : M unit :=
  Init settingNames ;;
  RegisterSettingsHandler ;;
  RegisterCallback settingNames.

Definition construct (settingNames : gset string) (w : World) : State :=
  exec (CPVRSettings_ctor settingNames) (mkState ∅ w).

Definition CPVRSettings_dtor : M unit :=
  UnregisterCallback ;;
  UnregisterSettingsHandler.

(** The first block copies the keys of [m_settings] into a local set and
    clears the map; the set, not the order of the copy, is what [Init]
    receives. *)
Definition OnSettingsLoaded : M unit :=
  m ← get_m_settings;
  let settingNames : gset string :=
    foldl (λ acc settingName, acc ∪ {[ settingName.1 ]}) ∅ (map_to_list m) in
  with_m_settings (λ _, ∅) ;;
  Init settingNames.

Definition OnSettingChanged (setting : SettingPtr) : M unit :=
  match setting with
  | None => mret tt
  | Some setting =>
      with_m_settings (<[GetId setting := Clone (GetId setting) setting]>)
  end.

Definition GetBoolValue (settingName : string) : M bool :=
  m ← get_m_settings;
  let found :=
    match m !! settingName with
    | Some s =>
        if decide (GetType s = SettingType.Boolean)
        then as_CSettingBool s else None
    | None => None
    end in
  match found with
  | Some v => mret v
  | None => LogF (wrong_setting_msg settingName) ;; mret false
  end.

Definition GetIntValue (settingName : string) : M Z :=
  m ← get_m_settings;
  let found :=
    match m !! settingName with
    | Some s =>
        if decide (GetType s = SettingType.Integer)
        then as_CSettingInt s else None
    | None => None
    end in
  match found with
  | Some v => mret v
  | None => LogF (wrong_setting_msg settingName) ;; mret (-1)
  end.

Definition GetStringValue (settingName : string) : M string :=
  m ← get_m_settings;
  let found :=
    match m !! settingName with
    | Some s =>
        if decide (GetType s = SettingType.String)
        then as_CSettingString s else None
    | None => None
    end in
  match found with
  | Some v => mret v
  | None => LogF (wrong_setting_msg settingName) ;; mret ""
  end.

(** The [void *] context argument of the two static callbacks. *)
Abbreviation void_ptr := N.

Section Callbacks.
(** [g_localizeStrings.Get] and [StringUtils::Format] belong to the
    localisation and string utilities; the two identifiers are constants
    of [CSettings].  None is defined in this file. *)
Variable g_localizeStrings_Get : Z → string.
Variable StringUtils_Format : string → Z → string.
Variable SETTING_PVRMANAGER_USEBACKENDCHANNELNUMBERS : string.
Variable SETTING_PVRMANAGER_CLIENTPRIORITIES : string.

Definition marginTimeValues : list Z :=
  [0; 1; 3; 5; 10; 15; 20; 30; 60; 90; 120; 180].

Definition marginTimeValuesCount : nat := length marginTimeValues.

(** Returns the contents of the two reference parameters, the list and
    [current], on exit. *)
Definition MarginTimeFiller (setting : SettingPtr)
    (lst : list (string * Z)%type) (current : Z) (data : void_ptr)
    : list (string * Z)%type * Z :=
  let lst : list (string * Z)%type := [] in
  let lst :=
    foldl (λ (lst : list (string * Z)%type) i,
             let iValue := marginTimeValues !!! i in
             (lst ++
                [(StringUtils_Format (g_localizeStrings_Get 14044) iValue,
                  iValue)])%list)
          lst (seq 0 marginTimeValuesCount) in
  (lst, current).

(** [EnabledClientAmount] is the value the client manager reports at the
    time of the call. *)
Definition IsSettingVisible (EnabledClientAmount : Z)
    (condition value : string) (setting : SettingPtr) (data : void_ptr)
    : bool :=
  match setting with
  | None => false
  | Some setting =>
      let settingId := GetId setting in
      if decide (settingId = SETTING_PVRMANAGER_USEBACKENDCHANNELNUMBERS)
      then bool_decide (EnabledClientAmount = 1)
      else if decide (settingId = SETTING_PVRMANAGER_CLIENTPRIORITIES)
      then bool_decide (EnabledClientAmount > 1)
      else true
  end.
End Callbacks.

(** ** Lifetime of a cache

    After construction the registry calls back into the cache, and the
    registry's own contents change without the cache taking part. *)
Inductive Event :=
| RegistryChanged (new_settings : gmap string CSetting)
| SettingsLoaded
| SettingChanged (setting : SettingPtr).

Definition set_registry (new_settings : gmap string CSetting) : M unit :=
  with_world (λ w,
    mkWorld new_settings (log w) (lookups w) (settingsHandler w) (callback w)).

Definition step (ev : Event) : M unit :=
  match ev with
  | RegistryChanged new_settings => set_registry new_settings
  | SettingsLoaded => OnSettingsLoaded
  | SettingChanged setting => OnSettingChanged setting
  end.

Definition run (evs : list Event) : M unit := for_each evs step.

(** The cache agrees with the registry when every entry is the clone of
    what the registry holds under the entry's key. *)
Definition in_sync (st : State) : Prop :=
  map_Forall
    (λ k s, Clone k <$> settings (world st) !! k = Some s)
    (m_settings st).

(** Each setting is of the kind declared for its identifier. *)
Definition well_kinded (kind_of : string → SettingType.t)
    (m : gmap string CSetting) : Prop :=
  map_Forall (λ k s, GetType s = kind_of k) m.

Definition event_well_kinded (kind_of : string → SettingType.t)
    (ev : Event) : Prop :=
  match ev with
  | RegistryChanged new_settings => well_kinded kind_of new_settings
  | SettingsLoaded => True
  | SettingChanged None => True
  | SettingChanged (Some s) => GetType s = kind_of (GetId s)
  end.

(** The identifiers a computation passes to [GetSetting]. *)
Definition looked_up_by (c : M unit) (st : State) : list string :=
  drop (length (lookups (world st))) (lookups (world (exec c st))).

(** Registry and cache both respect the declared kinds. *)
Definition kinds_ok (kind_of : string → SettingType.t) (st : State) : Prop :=
  well_kinded kind_of (settings (world st))
  ∧ well_kinded kind_of (m_settings st).

(** An event delivers [k] when it is a change notification for [k]. *)
Definition delivers (k : string) (ev : Event) : Prop :=
  match ev with
  | SettingChanged (Some s) => GetId s = k
  | _ => False
  end.

(** Every entry reports the key it is stored under as its identifier. *)
Definition ids_ok (m : gmap string CSetting) : Prop :=
  map_Forall (λ k s, GetId s = k) m.

(** An event that leaves the registry [R] alone and, when it is a change
    notification, hands over the setting [R] holds under the handle's
    identifier. *)
Definition from_registry (R : gmap string CSetting) (ev : Event) : Prop :=
  match ev with
  | RegistryChanged _ => False
  | SettingsLoaded | SettingChanged None => True
  | SettingChanged (Some s) => R !! GetId s = Some s
  end.

Definition is_RegistryChanged (ev : Event) : Prop :=
  match ev with
  | RegistryChanged _ => True
  | _ => False
  end.

(** A change notification with a non-null handle. *)
Definition is_notification (ev : Event) : Prop :=
  match ev with
  | SettingChanged (Some _) => True
  | _ => False
  end.

(** What an accessor for [settingName] appends to the log, given the value
    it found, if any. *)
Definition fallback_log {A} (settingName : string) (found : option A)
    : list string :=
  match found with
  | Some _ => []
  | None => [wrong_setting_msg settingName]
  end.

(** ** Sample data *)

(** An identifier with a NUL byte inside: the bytes [a], NUL, [b]. *)
Definition nul_name : string := "a" +:+ String Ascii.zero "b".

Definition sample_registry : gmap string CSetting :=
  {[ "pvrmanager.hideconnectionlostwarning" :=
       CSettingBool "pvrmanager.hideconnectionlostwarning" true;
     "pvrrecord.marginstart" := CSettingInt "pvrrecord.marginstart" 3;
     "pvrmenu.icons" := CSettingString "pvrmenu.icons" "default" ]}.

Definition sample_world : World := mkWorld sample_registry [] [] false None.

(** Two of the requested names are known to the registry, the third is not. *)
Definition sample_names : gset string :=
  {[ "pvrmanager.hideconnectionlostwarning"; "pvrrecord.marginstart";
     "pvrrecord.margin" ]}.

Definition sample_state : State := construct sample_names sample_world.

(** The registry after a settings file was read that turns the boolean
    setting off. *)
Definition reloaded_registry : gmap string CSetting :=
  <[ "pvrmanager.hideconnectionlostwarning" :=
       CSettingBool "pvrmanager.hideconnectionlostwarning" false ]>
    sample_registry.

Definition stale_state : State :=
  exec (run [RegistryChanged reloaded_registry]) sample_state.

Definition sample_kind_of (k : string) : SettingType.t :=
  if decide (k = "pvrrecord.marginstart") then SettingType.Integer
  else if decide (k = "pvrmenu.icons") then SettingType.String
  else SettingType.Boolean.

Definition sample_events : list Event :=
  [ SettingChanged (Some (CSettingInt "pvrrecord.marginstart" 10));
    RegistryChanged reloaded_registry;
    SettingsLoaded;
    SettingChanged None;
    SettingChanged (Some (CSettingString "pvrmenu.icons" "large")) ].

(** ** Monad and container lemmas *)

Lemma exec_bind {A B} (c : M A) (k : A → M B) (st : State) :
  exec (c ≫= k) st = exec (k (eval c st)) (exec c st).
Proof. unfold exec, eval, mbind, M_bind. by destruct (c st). Qed.

Lemma eval_bind {A B} (c : M A) (k : A → M B) (st : State) :
  eval (c ≫= k) st = eval (k (eval c st)) (exec c st).
Proof. unfold exec, eval, mbind, M_bind. by destruct (c st). Qed.

Lemma exec_for_each_cons {A} (x : A) (l : list A) (body : A → M unit) st :
  exec (for_each (x :: l) body) st = exec (for_each l body) (exec (body x) st).
Proof. simpl. by rewrite exec_bind. Qed.

Lemma exec_for_each_app {A} (l1 l2 : list A) (body : A → M unit) st :
  exec (for_each (l1 ++ l2) body) st
  = exec (for_each l2 body) (exec (for_each l1 body) st).
Proof.
  revert st. induction l1 as [|x l1 IH]; intros st; [done|].
  rewrite <- app_comm_cons, !exec_for_each_cons. apply IH.
Qed.

Lemma elem_of_set_begin_end (k : string) (s : gset string) :
  k ∈ set_begin_end s ↔ k ∈ s.
Proof.
  unfold set_begin_end. rewrite merge_sort_Permutation. apply elem_of_elements.
Qed.

Lemma list_to_set_set_begin_end (s : gset string) :
  list_to_set (set_begin_end s) = s.
Proof.
  apply set_eq. intros k.
  by rewrite elem_of_list_to_set, elem_of_set_begin_end.
Qed.

Lemma map_insert_lookup k v (m : gmap string CSetting) j :
  map_insert k v m !! j
  = match m !! j with
    | Some s => Some s
    | None => if decide (k = j) then Some v else None
    end.
Proof.
  unfold map_insert. destruct (m !! k) as [s|] eqn:Hk.
  - destruct (m !! j) eqn:Hj; [done|]. case_decide; [congruence|done].
  - rewrite lookup_insert. case_decide; subst.
    + by rewrite Hk.
    + by destruct (m !! j).
Qed.

Lemma collect_keys_dom (m : gmap string CSetting) :
  foldl (λ (acc : gset string) (settingName : string * CSetting),
           acc ∪ {[ settingName.1 ]}) ∅ (map_to_list m)
  = dom m.
Proof.
  assert (∀ (l : list (string * CSetting)) (acc : gset string),
    foldl (λ (acc : gset string) (kv : string * CSetting), acc ∪ {[ kv.1 ]})
      acc l = acc ∪ list_to_set l.*1) as Hfold.
  { induction l as [|kv l IH]; intros acc; simpl.
    - set_solver.
    - rewrite IH. set_solver. }
  rewrite Hfold. apply leibniz_equiv. rewrite dom_alt. set_solver.
Qed.

(** ** Identifiers in log lines *)

Lemma c_str_NUL_free (s : string) :
  Forall (λ c, c ≠ Ascii.zero) (String.list_ascii_of_string s) → c_str s = s.
Proof.
  induction s as [|c s IH]; simpl; [done|].
  intros [Hc Hs]%Forall_cons. rewrite decide_False by done.
  by rewrite IH.
Qed.

Lemma c_str_stops_at_NUL (s1 s2 : string) :
  c_str (s1 +:+ String Ascii.zero s2) = c_str s1.
Proof.
  induction s1 as [|c s1 IH]; simpl; [done|].
  case_decide; [done|]. f_equal. apply IH.
Qed.

Lemma c_str_idemp (s : string) : c_str (c_str s) = c_str s.
Proof.
  induction s as [|c s IH]; simpl; [done|].
  case_decide as Hc; [done|]. simpl. rewrite decide_False by done.
  by rewrite IH.
Qed.

(** ** The initialisation loop *)

Lemma exec_Init_body (settingName : string) (st : State) :
  exec (Init_body settingName) st
  = let w := world st in
    match settings w !! settingName with
    | None =>
        mkState (m_settings st)
          (mkWorld (settings w)
             ((log w ++ [unknown_setting_msg settingName])%list)
             ((lookups w ++ [settingName])%list)
             (settingsHandler w) (callback w))
    | Some setting =>
        mkState
          (map_insert settingName (Clone settingName setting) (m_settings st))
          (mkWorld (settings w) (log w)
             ((lookups w ++ [settingName])%list)
             (settingsHandler w) (callback w))
    end.
Proof.
  unfold Init_body. rewrite exec_bind. unfold GetSetting, eval, exec. simpl.
  by destruct (settings (world st) !! settingName).
Qed.

Section InitLoop.
Variable l : list string.
Variable st : State.

Local Abbreviation st' := (exec (for_each l Init_body) st).

Lemma Init_loop_settings :
  settings (world st') = settings (world st).
Proof.
  revert st. induction l as [|x l' IH]; intros st; [done|].
  rewrite exec_for_each_cons, IH, exec_Init_body. simpl.
  by destruct (settings (world st) !! x).
Qed.

Lemma Init_loop_registrations :
  settingsHandler (world st') = settingsHandler (world st)
  ∧ callback (world st') = callback (world st).
Proof.
  revert st. induction l as [|x l' IH]; intros st; [done|].
  rewrite exec_for_each_cons.
  destruct (IH (exec (Init_body x) st)) as [-> ->].
  rewrite exec_Init_body. simpl.
  by destruct (settings (world st) !! x).
Qed.

Lemma Init_loop_lookups :
  lookups (world st') = (lookups (world st) ++ l)%list.
Proof.
  revert st. induction l as [|x l' IH]; intros st.
  - simpl. by rewrite app_nil_r.
  - rewrite exec_for_each_cons, IH, exec_Init_body. simpl.
    destruct (settings (world st) !! x); simpl; by rewrite <- app_assoc.
Qed.

Lemma Init_loop_log :
  log (world st')
  = (log (world st)
     ++ (unknown_setting_msg
           <$> filter (λ k, settings (world st) !! k = None) l))%list.
Proof.
  revert st. induction l as [|x l' IH]; intros st.
  - simpl. by rewrite app_nil_r.
  - rewrite exec_for_each_cons, IH.
    assert (settings (world (exec (Init_body x) st)) = settings (world st))
      as ->.
    { rewrite exec_Init_body. simpl.
      by destruct (settings (world st) !! x). }
    rewrite exec_Init_body, filter_cons. simpl.
    destruct (settings (world st) !! x) eqn:Hx; simpl.
    + done.
    + by rewrite <- app_assoc.
Qed.

Lemma Init_loop_lookup (k : string) :
  m_settings st' !! k
  = match m_settings st !! k with
    | Some s => Some s
    | None =>
        if decide (k ∈ l) then Clone k <$> settings (world st) !! k
        else None
    end.
Proof.
  revert st. induction l as [|x l' IH]; intros st.
  - simpl. unfold exec. simpl. by destruct (m_settings st !! k).
  - rewrite exec_for_each_cons, IH.
    assert (settings (world (exec (Init_body x) st)) = settings (world st))
      as ->.
    { rewrite exec_Init_body. simpl.
      by destruct (settings (world st) !! x). }
    rewrite exec_Init_body. simpl.
    destruct (settings (world st) !! x) as [sx|] eqn:Hx; simpl.
    + rewrite map_insert_lookup.
      destruct (m_settings st !! k) eqn:Hk; [done|].
      destruct (decide (x = k)) as [->|Hne].
      * rewrite decide_True by apply list_elem_of_here. by rewrite Hx.
      * destruct (decide (k ∈ l')) as [Hin|Hnin].
        -- by rewrite decide_True by (by apply list_elem_of_further).
        -- rewrite decide_False; [done|].
           intros [?|?]%elem_of_cons; congruence.
    + destruct (m_settings st !! k) eqn:Hk; [done|].
      destruct (decide (k ∈ l')) as [Hin|Hnin].
      * by rewrite decide_True by (by apply list_elem_of_further).
      * destruct (decide (k ∈ x :: l')) as [[->|?]%elem_of_cons|?];
          [by rewrite Hx|done|done].
Qed.
End InitLoop.

(** ** Member functions as state transformers *)

Lemma Init_lookup (settingNames : gset string) (st : State) (k : string) :
  m_settings (exec (Init settingNames) st) !! k
  = match m_settings st !! k with
    | Some s => Some s
    | None =>
        if decide (k ∈ settingNames) then Clone k <$> settings (world st) !! k
        else None
    end.
Proof.
  unfold Init. rewrite Init_loop_lookup.
  destruct (m_settings st !! k); [done|].
  apply decide_ext, elem_of_set_begin_end.
Qed.

Lemma construct_m_settings (settingNames : gset string) (w : World) k :
  m_settings (construct settingNames w) !! k
  = if decide (k ∈ settingNames) then Clone k <$> settings w !! k else None.
Proof.
  unfold construct, CPVRSettings_ctor. rewrite !exec_bind.
  change (m_settings (exec (Init settingNames) (mkState ∅ w)) !! k = 
          if decide (k ∈ settingNames) then Clone k <$> settings w !! k
          else None).
  rewrite Init_lookup. simpl. by rewrite lookup_empty.
Qed.

Lemma construct_world (settingNames : gset string) (w : World) :
  world (construct settingNames w)
  = mkWorld (settings w)
      ((log w
        ++ (unknown_setting_msg
              <$> filter (λ k, settings w !! k = None)
                    (set_begin_end settingNames)))%list)
      ((lookups w ++ set_begin_end settingNames)%list)
      true (Some settingNames).
Proof.
  unfold construct, CPVRSettings_ctor. rewrite !exec_bind.
  unfold RegisterCallback, RegisterSettingsHandler, with_world, exec at 1 2.
  simpl. unfold Init.
  rewrite Init_loop_settings, Init_loop_log, Init_loop_lookups. done.
Qed.

Lemma OnSettingsLoaded_exec (st : State) :
  exec OnSettingsLoaded st
  = exec (Init (dom (m_settings st))) (mkState ∅ (world st)).
Proof.
  unfold OnSettingsLoaded. rewrite !exec_bind.
  unfold get_m_settings, eval, exec at 2 3, with_m_settings. simpl.
  by rewrite collect_keys_dom.
Qed.

Lemma OnSettingsLoaded_lookup (st : State) (k : string) :
  m_settings (exec OnSettingsLoaded st) !! k
  = match m_settings st !! k with
    | Some _ => Clone k <$> settings (world st) !! k
    | None => None
    end.
Proof.
  rewrite OnSettingsLoaded_exec, Init_lookup. simpl. rewrite lookup_empty.
  destruct (m_settings st !! k) as [s|] eqn:Hk.
  - rewrite decide_True; [done|]. apply elem_of_dom. by exists s.
  - rewrite decide_False; [done|]. by rewrite not_elem_of_dom.
Qed.

Lemma OnSettingsLoaded_settings (st : State) :
  settings (world (exec OnSettingsLoaded st)) = settings (world st).
Proof.
  rewrite OnSettingsLoaded_exec. unfold Init. by rewrite Init_loop_settings.
Qed.

Lemma OnSettingsLoaded_lookups (st : State) :
  lookups (world (exec OnSettingsLoaded st))
  = (lookups (world st) ++ set_begin_end (dom (m_settings st)))%list.
Proof.
  rewrite OnSettingsLoaded_exec. unfold Init. by rewrite Init_loop_lookups.
Qed.

Lemma OnSettingChanged_exec (setting : CSetting) (st : State) :
  exec (OnSettingChanged (Some setting)) st
  = mkState (<[GetId setting := Clone (GetId setting) setting]> (m_settings st))
      (world st).
Proof. done. Qed.

Lemma looked_up_by_OnSettingsLoaded (st : State) :
  looked_up_by OnSettingsLoaded st = set_begin_end (dom (m_settings st)).
Proof.
  unfold looked_up_by. rewrite OnSettingsLoaded_lookups.
  by rewrite drop_app_length.
Qed.

Lemma Clone_GetType (id : string) (s : CSetting) :
  GetType (Clone id s) = GetType s.
Proof. by destruct s. Qed.

Lemma Clone_GetId (id : string) (s : CSetting) : GetId (Clone id s) = id.
Proof. by destruct s. Qed.

(** ** Typed accessors *)

Lemma accessors_keep_m_settings (settingName : string) (st : State) :
  m_settings (exec (GetBoolValue settingName) st) = m_settings st
  ∧ m_settings (exec (GetIntValue settingName) st) = m_settings st
  ∧ m_settings (exec (GetStringValue settingName) st) = m_settings st.
Proof.
  unfold GetBoolValue, GetIntValue, GetStringValue.
  rewrite !exec_bind. unfold get_m_settings, eval, exec. simpl.
  destruct (m_settings st !! settingName) as [[]|]; done.
Qed.

(** C1: each typed accessor returns the value of the entry stored under the
    identifier when that entry is of the accessor's kind, and otherwise
    (no entry, or an entry of another kind) its default: [false] for
    [GetBoolValue], [-1] for [GetIntValue], the empty string for
    [GetStringValue]. *)
Theorem C1_typed_accessors (settingName : string) (st : State) :
  eval (GetBoolValue settingName) st
  = match m_settings st !! settingName with
    | Some (CSettingBool _ v) => v
    | Some (CSettingInt _ _) | Some (CSettingString _ _) | None => false
    end
  ∧ eval (GetIntValue settingName) st
    = match m_settings st !! settingName with
      | Some (CSettingInt _ v) => v
      | Some (CSettingBool _ _) | Some (CSettingString _ _) | None => -1
      end
  ∧ eval (GetStringValue settingName) st
    = match m_settings st !! settingName with
      | Some (CSettingString _ v) => v
      | Some (CSettingBool _ _) | Some (CSettingInt _ _) | None => ""
      end.
Proof.
  unfold GetBoolValue, GetIntValue, GetStringValue.
  rewrite !eval_bind. unfold get_m_settings, eval, exec. simpl.
  destruct (m_settings st !! settingName) as [[]|]; done.
Qed.

(** ** Change notification *)

(** C2: [OnSettingChanged] with a null handle changes nothing; with a
    non-null handle the entry under the handle's identifier becomes a clone
    of the incoming setting, whatever the state held before (so also when
    the identifier was never requested), every other key keeps its entry,
    and nothing outside the mapping changes. *)
Theorem C2_OnSettingChanged_frame (st : State) :
  exec (OnSettingChanged None) st = st
  ∧ ∀ (setting : CSetting) (k : string),
      m_settings (exec (OnSettingChanged (Some setting)) st) !! k
      = (if decide (k = GetId setting)
         then Some (Clone (GetId setting) setting)
         else m_settings st !! k)
      ∧ world (exec (OnSettingChanged (Some setting)) st) = world st.
Proof.
  split; [by destruct st|]. intros setting k.
  rewrite OnSettingChanged_exec. simpl. split; [|done].
  rewrite lookup_insert. destruct (decide (k = GetId setting)) as [->|Hne].
  - by rewrite decide_True.
  - by rewrite decide_False by congruence.
Qed.

Example OnSettingChanged_widens :
  ("pvrmenu.icons" ∉ sample_names)
  ∧ m_settings sample_state !! "pvrmenu.icons" = None
  ∧ m_settings
      (exec (OnSettingChanged (Some (CSettingString "pvrmenu.icons" "large")))
         sample_state) !! "pvrmenu.icons"
    = Some (CSettingString "pvrmenu.icons" "large").
Proof.
  split; [|split; reflexivity].
  unfold sample_names. intros Hin. set_unfold in Hin.
  destruct Hin as [[Hin|Hin]|Hin]; discriminate Hin.
Qed.

(** ** Static callbacks *)

(** C4: [IsSettingVisible] is false for a null handle; for the
    use-backend-channel-numbers setting it is true exactly when one client is
    enabled, for the client-priorities setting exactly when more than one
    is, and for every other identifier it is true.  The two identifiers are
    distinct constants. *)
Theorem C4_IsSettingVisible
    (USEBACKENDCHANNELNUMBERS CLIENTPRIORITIES : string)
    (Hdistinct : USEBACKENDCHANNELNUMBERS ≠ CLIENTPRIORITIES)
    (EnabledClientAmount : Z) (condition value : string) (data : void_ptr) :
  let visible :=
    IsSettingVisible USEBACKENDCHANNELNUMBERS CLIENTPRIORITIES
      EnabledClientAmount condition value in
  visible None data = false
  ∧ ∀ setting : CSetting,
      (GetId setting = USEBACKENDCHANNELNUMBERS →
         (visible (Some setting) data = true ↔ EnabledClientAmount = 1))
      ∧ (GetId setting = CLIENTPRIORITIES →
         (visible (Some setting) data = true ↔ EnabledClientAmount > 1))
      ∧ (GetId setting ≠ USEBACKENDCHANNELNUMBERS →
         GetId setting ≠ CLIENTPRIORITIES →
         visible (Some setting) data = true).
Proof.
  simpl. split; [done|]. intros setting. unfold IsSettingVisible.
  split; [|split].
  - intros Hid. rewrite decide_True by done. apply bool_decide_eq_true.
  - intros Hid. rewrite decide_False by congruence.
    rewrite decide_True by done. apply bool_decide_eq_true.
  - intros Hid1 Hid2. by rewrite !decide_False by done.
Qed.

Lemma C4_IsSettingVisible_witness :
  "pvrmanager.usebackendchannelnumbers" ≠ "pvrmanager.clientpriorities"
  ∧ IsSettingVisible "pvrmanager.usebackendchannelnumbers"
      "pvrmanager.clientpriorities" 2 "" ""
      (Some (CSettingBool "pvrmanager.clientpriorities" false)) 0%N = true.
Proof.
  assert ("pvrmanager.usebackendchannelnumbers"
          ≠ "pvrmanager.clientpriorities") as Hdistinct by discriminate.
  split; [exact Hdistinct|].
  destruct (C4_IsSettingVisible "pvrmanager.usebackendchannelnumbers"
              "pvrmanager.clientpriorities" Hdistinct 2 "" "" 0%N)
    as [_ Hvisible].
  destruct (Hvisible (CSettingBool "pvrmanager.clientpriorities" false))
    as (_ & Hpriorities & _).
  apply Hpriorities; [reflexivity | lia].
Defined.

(** C9: the condition string, the value string and the context pointer do
    not influence [IsSettingVisible]: two calls with the same handle and the
    same number of enabled clients give the same answer. *)
Theorem C9_IsSettingVisible_ignores_condition_value_data
    (USEBACKENDCHANNELNUMBERS CLIENTPRIORITIES : string)
    (EnabledClientAmount : Z) (setting : SettingPtr)
    (condition1 value1 condition2 value2 : string) (data1 data2 : void_ptr) :
  IsSettingVisible USEBACKENDCHANNELNUMBERS CLIENTPRIORITIES
    EnabledClientAmount condition1 value1 setting data1
  = IsSettingVisible USEBACKENDCHANNELNUMBERS CLIENTPRIORITIES
      EnabledClientAmount condition2 value2 setting data2.
Proof. reflexivity. Qed.

(** C5: whatever the list held and whatever the other arguments are,
    [MarginTimeFiller] leaves the list with exactly the twelve pairs for
    0, 1, 3, 5, 10, 15, 20, 30, 60, 90, 120 and 180 minutes in this order,
    each label being the localised template 14044 formatted with the minute
    value, and leaves [current] as it was. *)
Theorem C5_MarginTimeFiller
    (g_localizeStrings_Get : Z → string)
    (StringUtils_Format : string → Z → string)
    (setting : SettingPtr) (lst : list (string * Z)%type) (current : Z)
    (data : void_ptr) :
  let label minutes :=
    StringUtils_Format (g_localizeStrings_Get 14044) minutes in
  let result :=
    MarginTimeFiller g_localizeStrings_Get StringUtils_Format
      setting lst current data in
  result.1
  = [ (label 0, 0); (label 1, 1); (label 3, 3); (label 5, 5);
      (label 10, 10); (label 15, 15); (label 20, 20); (label 30, 30);
      (label 60, 60); (label 90, 90); (label 120, 120); (label 180, 180) ]
  ∧ length result.1 = 12%nat
  ∧ result.2 = current.
Proof. simpl. repeat split. Qed.

(** ** Construction *)

(** C6: after construction, a requested identifier that the registry knows
    has an entry holding the clone of the registry's setting, and a requested
    identifier that the registry does not know has no entry and its
    "unknown setting" message, which names the identifier as [%s] prints its
    [c_str()], was appended to the log. *)
Theorem C6_construction (settingNames : gset string) (w : World) (k : string) :
  k ∈ settingNames →
  let st := construct settingNames w in
  match settings w !! k with
  | Some setting => m_settings st !! k = Some (Clone k setting)
  | None =>
      m_settings st !! k = None
      ∧ ∃ logged : list string,
          log (world st) = (log w ++ logged)%list
          ∧ unknown_setting_msg k ∈ logged
  end.
Proof.
  intros Hk. simpl. rewrite construct_m_settings, construct_world.
  rewrite decide_True by done. simpl.
  destruct (settings w !! k) eqn:Hw; [done|].
  split; [done|]. eexists. split; [done|].
  apply list_elem_of_fmap. exists k. split; [done|].
  apply list_elem_of_filter. split; [done|]. by apply elem_of_set_begin_end.
Qed.

Lemma C6_construction_witness :
  "pvrrecord.marginstart" ∈ sample_names
  ∧ m_settings sample_state !! "pvrrecord.marginstart"
    = Some (CSettingInt "pvrrecord.marginstart" 3).
Proof.
  assert ("pvrrecord.marginstart" ∈ sample_names) as Hin
    by (unfold sample_names; set_solver).
  split; [exact Hin|].
  exact (C6_construction sample_names sample_world "pvrrecord.marginstart" Hin).
Defined.

Example construct_logs_c_str :
  lookups (world (construct {[ nul_name ]} sample_world)) = [nul_name]
  ∧ log (world (construct {[ nul_name ]} sample_world))
    = ["Unknown PVR setting 'a'"]
  ∧ unknown_setting_msg nul_name = "Unknown PVR setting 'a'".
Proof. by vm_compute. Qed.

Example accessor_logs_c_str :
  eval (GetIntValue nul_name) sample_state = -1
  ∧ log (world (exec (GetIntValue nul_name) sample_state))
    = (log (world sample_state)
       ++ ["PVR setting 'a' not found or wrong type given"])%list.
Proof. by vm_compute. Qed.

(** ** Bulk reload *)

Lemma construct_in_sync (settingNames : gset string) (w : World) :
  in_sync (construct settingNames w).
Proof.
  intros k s. rewrite construct_m_settings, construct_world. simpl.
  case_decide; [done|discriminate].
Qed.

Lemma OnSettingsLoaded_in_sync (st : State) :
  in_sync (exec OnSettingsLoaded st).
Proof.
  intros k s. rewrite OnSettingsLoaded_lookup, OnSettingsLoaded_settings.
  destruct (m_settings st !! k); [done|discriminate].
Qed.

Lemma step_in_sync (ev : Event) (st : State) :
  match ev with
  | RegistryChanged _ => False
  | SettingsLoaded | SettingChanged None => True
  | SettingChanged (Some s) =>
      Clone (GetId s) <$> settings (world st) !! GetId s
      = Some (Clone (GetId s) s)
  end →
  in_sync st →
  in_sync (exec (step ev) st).
Proof.
  destruct ev as [new_settings| |[s|]]; cbn [step]; intros Hev Hsync.
  - done.
  - apply OnSettingsLoaded_in_sync.
  - rewrite OnSettingChanged_exec. by apply map_Forall_insert_2.
  - done.
Qed.

(** C3, as amended: when every entry of the cache is the clone of what the
    registry holds under the entry's key, a bulk reload reproduces the
    mapping it found. *)
Theorem C3_reload_of_synchronised_cache (st : State) :
  in_sync st →
  m_settings (exec OnSettingsLoaded st) = m_settings st.
Proof.
  intros Hsync. apply map_eq. intros k. rewrite OnSettingsLoaded_lookup.
  destruct (m_settings st !! k) as [s|] eqn:Hk; [|done].
  by apply Hsync.
Qed.

Lemma C3_reload_of_synchronised_cache_witness :
  in_sync sample_state
  ∧ m_settings (exec OnSettingsLoaded sample_state) = m_settings sample_state.
Proof.
  assert (in_sync sample_state) as Hsync by apply construct_in_sync.
  split; [exact Hsync|].
  exact (C3_reload_of_synchronised_cache sample_state Hsync).
Defined.

(** C3, as stated, fails: the cache was built while the boolean setting was
    on, the registry has since turned it off, and the registry is the same
    before and after the reload; the reload replaces the cached value. *)
Lemma C3_reload_counterexample :
  settings (world (exec OnSettingsLoaded stale_state))
  = settings (world stale_state)
  ∧ m_settings stale_state !! "pvrmanager.hideconnectionlostwarning"
    = Some (CSettingBool "pvrmanager.hideconnectionlostwarning" true)
  ∧ m_settings (exec OnSettingsLoaded stale_state)
    ≠ m_settings stale_state.
Proof.
  split; [apply OnSettingsLoaded_settings|]. split; [reflexivity|].
  intros Heq.
  apply (f_equal (λ m : gmap string CSetting,
                    m !! "pvrmanager.hideconnectionlostwarning")) in Heq.
  vm_compute in Heq. discriminate Heq.
Qed.

(** C7, as amended: a bulk reload looks up exactly the identifiers that are
    keys of the cache when it starts, and the mapping it leaves holds, for
    each of them that the registry knows, a fresh clone and nothing else.
    When the reload directly follows a construction in which every requested
    identifier was found, these are the requested identifiers. *)
Theorem C7_reload_uses_current_keys :
  (∀ st : State,
     list_to_set (looked_up_by OnSettingsLoaded st)
     =@{gset string} dom (m_settings st)
     ∧ ∀ k : string,
         m_settings (exec OnSettingsLoaded st) !! k
         = if decide (k ∈ dom (m_settings st))
           then Clone k <$> settings (world st) !! k
           else None)
  ∧ (∀ (settingNames : gset string) (w : World),
       (∀ k, k ∈ settingNames → is_Some (settings w !! k)) →
       list_to_set (looked_up_by OnSettingsLoaded (construct settingNames w))
       =@{gset string} settingNames).
Proof.
  assert (∀ st : State,
            list_to_set (looked_up_by OnSettingsLoaded st)
            =@{gset string} dom (m_settings st)) as Hkeys.
  { intros st. rewrite looked_up_by_OnSettingsLoaded.
    apply list_to_set_set_begin_end. }
  split.
  - intros st. split; [apply Hkeys|]. intros k.
    rewrite OnSettingsLoaded_lookup.
    destruct (m_settings st !! k) as [s|] eqn:Hk.
    + rewrite decide_True; [done|]. apply elem_of_dom. by exists s.
    + rewrite decide_False; [done|]. by rewrite not_elem_of_dom.
  - intros settingNames w Hfound. rewrite Hkeys. apply set_eq. intros k.
    rewrite elem_of_dom, construct_m_settings. case_decide as Hk.
    + destruct (Hfound k Hk) as [s ->]. simpl. split; [done|by eexists].
    + split; [by intros [? ?]|done].
Qed.

Lemma C7_reload_uses_current_keys_witness :
  (∀ k, k ∈ ({[ "pvrrecord.marginstart"; "pvrmenu.icons" ]} : gset string) →
        is_Some (settings sample_world !! k))
  ∧ list_to_set
      (looked_up_by OnSettingsLoaded
         (construct {[ "pvrrecord.marginstart"; "pvrmenu.icons" ]}
            sample_world))
    =@{gset string} {[ "pvrrecord.marginstart"; "pvrmenu.icons" ]}.
Proof.
  assert (∀ k, k ∈ ({[ "pvrrecord.marginstart"; "pvrmenu.icons" ]}
                      : gset string) →
               is_Some (settings sample_world !! k)) as Hfound.
  { intros k Hk.
    apply elem_of_union in Hk as [Hk|Hk];
      apply elem_of_singleton in Hk; subst k; by eexists. }
  split; [exact Hfound|].
  exact (proj2 C7_reload_uses_current_keys _ sample_world Hfound).
Defined.

(** C7, as stated, fails: [sample_names] was requested at construction, the
    registry did not know one of the names, and the reload that follows
    looks up only the two names that became keys. *)
Lemma C7_reload_counterexample :
  list_to_set (looked_up_by OnSettingsLoaded sample_state)
  ≠@{gset string} sample_names.
Proof.
  intros Heq.
  assert ("pvrrecord.margin" ∈ sample_names) as Hin
    by (unfold sample_names; set_solver).
  rewrite <- Heq, elem_of_list_to_set in Hin.
  vm_compute in Hin.
  repeat (apply elem_of_cons in Hin as [Hin|Hin]; [discriminate Hin|]).
  by apply elem_of_nil in Hin.
Qed.

(** ** Lifetime invariants *)

Lemma exec_run_cons (ev : Event) (evs : list Event) (st : State) :
  exec (run (ev :: evs)) st = exec (run evs) (exec (step ev) st).
Proof. apply exec_for_each_cons. Qed.

Lemma exec_run_app (evs1 evs2 : list Event) (st : State) :
  exec (run (evs1 ++ evs2)) st = exec (run evs2) (exec (run evs1) st).
Proof. apply exec_for_each_app. Qed.

Section Kinds.
Variable kind_of : string → SettingType.t.

Lemma construct_kinds_ok (settingNames : gset string) (w : World) :
  well_kinded kind_of (settings w) →
  kinds_ok kind_of (construct settingNames w).
Proof.
  intros Hw. split.
  - by rewrite construct_world.
  - intros k s. rewrite construct_m_settings. case_decide; [|done].
    destruct (settings w !! k) as [s0|] eqn:Hk; [|done].
    intros [= <-]. rewrite Clone_GetType. by apply (Hw k).
Qed.

Lemma step_kinds_ok (ev : Event) (st : State) :
  event_well_kinded kind_of ev →
  kinds_ok kind_of st →
  kinds_ok kind_of (exec (step ev) st).
Proof.
  intros Hev [Hw Hm]. destruct ev as [new_settings| |[s|]]; cbn [step].
  - by split.
  - split.
    + by rewrite OnSettingsLoaded_settings.
    + intros k s. rewrite OnSettingsLoaded_lookup.
      destruct (m_settings st !! k); [|done].
      destruct (settings (world st) !! k) as [s0|] eqn:Hk; [|done].
      intros [= <-]. rewrite Clone_GetType. by apply (Hw k).
  - rewrite OnSettingChanged_exec. split; [done|]. simpl.
    apply map_Forall_insert_2; [|done].
    by rewrite Clone_GetType.
  - by split.
Qed.

Lemma run_kinds_ok (evs : list Event) (st : State) :
  Forall (event_well_kinded kind_of) evs →
  kinds_ok kind_of st →
  kinds_ok kind_of (exec (run evs) st).
Proof.
  intros Hevs. revert st.
  induction Hevs as [|ev evs Hev _ IH]; intros st Hst; [done|].
  rewrite exec_run_cons. by apply IH, step_kinds_ok.
Qed.
End Kinds.

(** C8: when the registry only ever holds and delivers settings of the kind
    declared for their identifier, every state the cache passes through
    after construction, over any sequence of registry changes, bulk reloads
    and change notifications, holds under each key a snapshot of the kind
    declared for that key; so a key never changes kind between two points
    of the cache's lifetime. *)
Theorem C8_kind_invariant (kind_of : string → SettingType.t)
    (settingNames : gset string) (w : World) (evs1 evs2 : list Event) :
  well_kinded kind_of (settings w) →
  Forall (event_well_kinded kind_of) (evs1 ++ evs2) →
  let st0 := construct settingNames w in
  let st1 := exec (run evs1) st0 in
  let st2 := exec (run (evs1 ++ evs2)) st0 in
  well_kinded kind_of (m_settings st0)
  ∧ well_kinded kind_of (m_settings st1)
  ∧ well_kinded kind_of (m_settings st2)
  ∧ ∀ (k : string) (s1 s2 : CSetting),
      m_settings st1 !! k = Some s1 →
      m_settings st2 !! k = Some s2 →
      GetType s1 = GetType s2.
Proof.
  intros Hw Hevs. simpl.
  pose proof (construct_kinds_ok kind_of settingNames w Hw) as H0.
  apply Forall_app in Hevs as [Hevs1 Hevs2].
  pose proof (run_kinds_ok kind_of evs1 _ Hevs1 H0) as H1.
  pose proof (run_kinds_ok kind_of evs2 _ Hevs2 H1) as H2.
  rewrite <- exec_run_app in H2.
  repeat split; [apply H0|apply H1|apply H2|].
  intros k s1 s2 Hs1 Hs2.
  destruct H1 as [_ H1]. destruct H2 as [_ H2].
  by rewrite (H1 k s1 Hs1), (H2 k s2 Hs2).
Qed.

Lemma sample_registry_well_kinded :
  well_kinded sample_kind_of sample_registry
  ∧ well_kinded sample_kind_of reloaded_registry.
Proof.
  assert (well_kinded sample_kind_of sample_registry) as Hw.
  { unfold sample_registry. repeat apply map_Forall_insert_2; done. }
  split; [done|]. by apply map_Forall_insert_2.
Qed.

Lemma C8_kind_invariant_witness :
  well_kinded sample_kind_of (settings sample_world)
  ∧ Forall (event_well_kinded sample_kind_of)
      (take 2 sample_events ++ drop 2 sample_events)
  ∧ well_kinded sample_kind_of
      (m_settings (exec (run sample_events) sample_state)).
Proof.
  destruct sample_registry_well_kinded as [Hw Hw'].
  assert (Forall (event_well_kinded sample_kind_of)
            (take 2 sample_events ++ drop 2 sample_events)) as Hevs.
  { simpl. repeat constructor. exact Hw'. }
  split; [exact Hw|]. split; [exact Hevs|].
  exact (proj1 (proj2 (proj2
    (C8_kind_invariant sample_kind_of sample_names sample_world
       (take 2 sample_events) (drop 2 sample_events) Hw Hevs)))).
Defined.

Lemma step_keeps_absent (k : string) (ev : Event) (st : State) :
  ¬ delivers k ev →
  m_settings st !! k = None →
  m_settings (exec (step ev) st) !! k = None.
Proof.
  intros Hev Hk. destruct ev as [new_settings| |[s|]]; cbn [step].
  - done.
  - by rewrite OnSettingsLoaded_lookup, Hk.
  - rewrite OnSettingChanged_exec. simpl. by rewrite lookup_insert_ne.
  - done.
Qed.

Lemma run_keeps_absent (k : string) (evs : list Event) (st : State) :
  Forall (λ ev, ¬ delivers k ev) evs →
  m_settings st !! k = None →
  m_settings (exec (run evs) st) !! k = None.
Proof.
  intros Hevs. revert st.
  induction Hevs as [|ev evs Hev _ IH]; intros st Hk; [done|].
  rewrite exec_run_cons. by apply IH, step_keeps_absent.
Qed.

(** C10: a bulk reload never adds a key: the keys after [OnSettingsLoaded]
    are among the keys before it.  An identifier the registry did not know
    at construction stays out of the cache over any sequence of registry
    changes, bulk reloads and change notifications for other identifiers. *)
Theorem C10_reload_never_widens :
  (∀ st : State,
     dom (m_settings (exec OnSettingsLoaded st)) ⊆ dom (m_settings st))
  ∧ (∀ (settingNames : gset string) (w : World) (evs : list Event)
       (k : string),
       settings w !! k = None →
       Forall (λ ev, ¬ delivers k ev) evs →
       m_settings (exec (run evs) (construct settingNames w)) !! k = None).
Proof.
  split.
  - intros st k. rewrite !elem_of_dom, OnSettingsLoaded_lookup.
    destruct (m_settings st !! k); [by eexists|by intros [? ?]].
  - intros settingNames w evs k Hw Hevs.
    apply run_keeps_absent; [done|].
    rewrite construct_m_settings, Hw. by case_decide.
Qed.

Lemma C10_reload_never_widens_witness :
  settings sample_world !! "pvrrecord.margin" = None
  ∧ Forall (λ ev, ¬ delivers "pvrrecord.margin" ev)
      (SettingsLoaded
       :: RegistryChanged
            (<["pvrrecord.margin" := CSettingInt "pvrrecord.margin" 1]>
               sample_registry)
       :: SettingsLoaded :: sample_events)
  ∧ m_settings
      (exec (run (SettingsLoaded
                  :: RegistryChanged
                       (<["pvrrecord.margin" :=
                            CSettingInt "pvrrecord.margin" 1]>
                          sample_registry)
                  :: SettingsLoaded :: sample_events))
         sample_state) !! "pvrrecord.margin" = None.
Proof.
  assert (settings sample_world !! "pvrrecord.margin" = None) as Hw
    by reflexivity.
  assert (Forall (λ ev, ¬ delivers "pvrrecord.margin" ev)
            (SettingsLoaded
             :: RegistryChanged
                  (<["pvrrecord.margin" := CSettingInt "pvrrecord.margin" 1]>
                     sample_registry)
             :: SettingsLoaded :: sample_events)) as Hevs.
  { unfold sample_events. repeat constructor; simpl; try tauto; discriminate. }
  split; [exact Hw|]. split; [exact Hevs|].
  exact (proj2 C10_reload_never_widens sample_names sample_world _ _ Hw Hevs).
Defined.

(** ** Further properties of construction and destruction *)

(** X1: the keys of a freshly constructed cache are exactly the requested
    identifiers that the registry knows; in particular the cache never holds
    more entries than identifiers were requested. *)
Theorem X1_construct_keys (settingNames : gset string) (w : World) :
  dom (m_settings (construct settingNames w))
  = settingNames ∩ dom (settings w)
  ∧ (size (m_settings (construct settingNames w)) ≤ size settingNames)%nat.
Proof.
  assert (dom (m_settings (construct settingNames w))
          = settingNames ∩ dom (settings w)) as Hdom.
  { apply set_eq. intros k.
    rewrite elem_of_intersection, !elem_of_dom, construct_m_settings.
    case_decide as Hk.
    - destruct (settings w !! k); simpl; split.
      + by intros _.
      + by intros _; eexists.
      + by intros [? ?].
      + by intros [_ [? ?]].
    - split; [by intros [? ?]|by intros [? _]]. }
  split; [exact Hdom|].
  rewrite <- size_dom, Hdom. apply subseteq_size. set_solver.
Qed.

(** X2: the constructor registers the cache as settings handler and as
    callback for all requested identifiers, also for those whose lookup
    failed, and leaves the registry's contents as they were. *)
Theorem X2_construct_registers (settingNames : gset string) (w : World) :
  let w' := world (construct settingNames w) in
  settingsHandler w' = true
  ∧ callback w' = Some settingNames
  ∧ settings w' = settings w.
Proof. simpl. by rewrite construct_world. Qed.

Lemma exec_CPVRSettings_dtor (st : State) :
  exec CPVRSettings_dtor st
  = mkState (m_settings st)
      (mkWorld (settings (world st)) (log (world st)) (lookups (world st))
         false None).
Proof. done. Qed.

(** X3: the destructor removes both registrations and touches neither the
    cached entries, nor the registry, nor the log; constructing a cache in a
    world without registrations and destroying it again leaves the world
    without registrations. *)
Theorem X3_destructor_unregisters :
  (∀ st : State,
     let st' := exec CPVRSettings_dtor st in
     settingsHandler (world st') = false
     ∧ callback (world st') = None
     ∧ m_settings st' = m_settings st
     ∧ settings (world st') = settings (world st)
     ∧ log (world st') = log (world st)
     ∧ lookups (world st') = lookups (world st))
  ∧ (∀ (settingNames : gset string) (w : World),
       settingsHandler w = false →
       callback w = None →
       let st' := exec CPVRSettings_dtor (construct settingNames w) in
       settingsHandler (world st') = settingsHandler w
       ∧ callback (world st') = callback w
       ∧ settings (world st') = settings w).
Proof.
  split.
  - intros st. by rewrite exec_CPVRSettings_dtor.
  - intros settingNames w Hhandler Hcallback.
    rewrite exec_CPVRSettings_dtor, construct_world, Hhandler, Hcallback.
    done.
Qed.

Lemma X3_destructor_unregisters_witness :
  settingsHandler sample_world = false
  ∧ callback sample_world = None
  ∧ callback (world (exec CPVRSettings_dtor sample_state))
    = callback sample_world.
Proof.
  split; [reflexivity|]. split; [reflexivity|].
  exact (proj1 (proj2 (proj2 X3_destructor_unregisters sample_names
                         sample_world eq_refl eq_refl))).
Defined.

(** X4: construction asks the registry for each requested identifier exactly
    once and for nothing else. *)
Theorem X4_construct_lookups (settingNames : gset string) (w : World) :
  ∃ asked : list string,
    lookups (world (construct settingNames w)) = (lookups w ++ asked)%list
    ∧ NoDup asked
    ∧ (∀ k, k ∈ asked ↔ k ∈ settingNames)
    ∧ length asked = size settingNames.
Proof.
  exists (set_begin_end settingNames). rewrite construct_world. simpl.
  split; [done|]. unfold set_begin_end.
  split; [|split].
  - rewrite merge_sort_Permutation. apply NoDup_elements.
  - intros k. apply elem_of_set_begin_end.
  - by rewrite merge_sort_Permutation.
Qed.


(** X6: [Init] never replaces an entry: a key that is present when [Init]
    starts keeps its snapshot, whatever the registry holds under that key;
    only absent requested keys are filled from the registry. *)
Theorem X6_Init_keeps_present_entries
    (settingNames : gset string) (st : State) (k : string) (s : CSetting) :
  m_settings st !! k = Some s →
  m_settings (exec (Init settingNames) st) !! k = Some s.
Proof. intros Hk. by rewrite Init_lookup, Hk. Qed.

Lemma X6_Init_keeps_present_entries_witness :
  m_settings stale_state !! "pvrmanager.hideconnectionlostwarning"
  = Some (CSettingBool "pvrmanager.hideconnectionlostwarning" true)
  ∧ settings (world stale_state) !! "pvrmanager.hideconnectionlostwarning"
    = Some (CSettingBool "pvrmanager.hideconnectionlostwarning" false)
  ∧ m_settings (exec (Init sample_names) stale_state)
      !! "pvrmanager.hideconnectionlostwarning"
    = Some (CSettingBool "pvrmanager.hideconnectionlostwarning" true).
Proof.
  split; [reflexivity|]. split; [reflexivity|].
  exact (X6_Init_keeps_present_entries sample_names stale_state
           "pvrmanager.hideconnectionlostwarning" _ eq_refl).
Defined.

(** ** Further properties of the bulk reload *)

(** X7: the keys left by a bulk reload are the keys it found that the
    registry still knows; a cached key the registry has lost is dropped. *)
Theorem X7_reload_keys (st : State) :
  dom (m_settings (exec OnSettingsLoaded st))
  = dom (m_settings st) ∩ dom (settings (world st)).
Proof.
  apply set_eq. intros k.
  rewrite elem_of_intersection, !elem_of_dom, OnSettingsLoaded_lookup.
  destruct (m_settings st !! k) as [s|].
  - destruct (settings (world st) !! k); simpl; split.
    + by intros _.
    + by intros _; eexists.
    + by intros [? ?].
    + by intros [_ [? ?]].
  - split; [by intros [? ?]|by intros [[? ?] _]].
Qed.

(** X8: a bulk reload is idempotent on the mapping: a second reload against
    the same registry changes no entry; and after any reload every entry is
    the clone of what the registry holds under its key. *)
Theorem X8_reload_idempotent (st : State) :
  m_settings (exec OnSettingsLoaded (exec OnSettingsLoaded st))
  = m_settings (exec OnSettingsLoaded st)
  ∧ in_sync (exec OnSettingsLoaded st).
Proof.
  split; [|apply OnSettingsLoaded_in_sync].
  apply map_eq. intros k.
  rewrite !OnSettingsLoaded_lookup, OnSettingsLoaded_settings.
  destruct (m_settings st !! k); [|done].
  by destruct (settings (world st) !! k).
Qed.

(** ** The cache along its lifetime *)

Lemma step_settings (ev : Event) (st : State) :
  ¬ is_RegistryChanged ev →
  settings (world (exec (step ev) st)) = settings (world st).
Proof.
  destruct ev as [new_settings| |[s|]]; cbn [step]; intros Hev.
  - by destruct Hev.
  - apply OnSettingsLoaded_settings.
  - done.
  - done.
Qed.

Lemma from_registry_not_RegistryChanged R (ev : Event) :
  from_registry R ev → ¬ is_RegistryChanged ev.
Proof. destruct ev as [new_settings| |[s|]]; simpl; tauto. Qed.

(** X9: as long as the registry's contents stay as they were at
    construction and every change notification hands over the setting the
    registry holds under that identifier, the cache stays in agreement with
    the registry over any sequence of reloads and notifications, and a
    reload at that point changes no entry. *)
Theorem X9_cache_follows_registry
    (settingNames : gset string) (w : World) (evs : list Event) :
  Forall (from_registry (settings w)) evs →
  let st := exec (run evs) (construct settingNames w) in
  settings (world st) = settings w
  ∧ in_sync st
  ∧ m_settings (exec OnSettingsLoaded st) = m_settings st.
Proof.
  intros Hevs. simpl.
  assert (∀ st0, settings (world st0) = settings w → in_sync st0 →
            settings (world (exec (run evs) st0)) = settings w
            ∧ in_sync (exec (run evs) st0)) as Hrun.
  { induction Hevs as [|ev evs Hev _ IH]; intros st0 Hw Hsync; [done|].
    rewrite exec_run_cons. apply IH.
    - rewrite step_settings; [done|].
      by eapply from_registry_not_RegistryChanged.
    - apply step_in_sync; [|done].
      destruct ev as [new_settings| |[s|]]; try done.
      simpl in Hev. by rewrite Hw, Hev. }
  destruct (Hrun (construct settingNames w)) as [Hw Hsync].
  { by rewrite construct_world. }
  { apply construct_in_sync. }
  split; [done|]. split; [done|].
  apply map_eq. intros k. rewrite OnSettingsLoaded_lookup.
  destruct (m_settings (exec (run evs) (construct settingNames w)) !! k)
    as [s|] eqn:Hk; [|done].
  by apply Hsync.
Qed.

Lemma X9_cache_follows_registry_witness :
  Forall (from_registry (settings sample_world))
    [ SettingChanged (Some (CSettingString "pvrmenu.icons" "default"));
      SettingsLoaded; SettingChanged None ]
  ∧ in_sync
      (exec (run [ SettingChanged
                     (Some (CSettingString "pvrmenu.icons" "default"));
                   SettingsLoaded; SettingChanged None ])
         sample_state).
Proof.
  assert (Forall (from_registry (settings sample_world))
            [ SettingChanged (Some (CSettingString "pvrmenu.icons" "default"));
              SettingsLoaded; SettingChanged None ]) as Hevs
    by (repeat constructor).
  split; [exact Hevs|].
  exact (proj1 (proj2
    (X9_cache_follows_registry sample_names sample_world _ Hevs))).
Defined.

Lemma step_ids_ok (ev : Event) (st : State) :
  ids_ok (m_settings st) → ids_ok (m_settings (exec (step ev) st)).
Proof.
  intros Hids. destruct ev as [new_settings| |[s|]]; cbn [step].
  - done.
  - intros k s. rewrite OnSettingsLoaded_lookup.
    destruct (m_settings st !! k); [|done].
    destruct (settings (world st) !! k); [|done].
    intros [= <-]. apply Clone_GetId.
  - rewrite OnSettingChanged_exec. simpl.
    apply map_Forall_insert_2; [|done]. apply Clone_GetId.
  - done.
Qed.

(** X10: at every point of a cache's lifetime, whatever the registry holds
    or delivers, each entry reports as its identifier the key it is stored
    under. *)
Theorem X10_entries_carry_their_key
    (settingNames : gset string) (w : World) (evs : list Event) :
  ids_ok (m_settings (exec (run evs) (construct settingNames w))).
Proof.
  assert (ids_ok (m_settings (construct settingNames w))) as H0.
  { intros k s. rewrite construct_m_settings. case_decide; [|done].
    destruct (settings w !! k); [|done]. intros [= <-]. apply Clone_GetId. }
  revert H0. generalize (construct settingNames w).
  induction evs as [|ev evs IH]; intros st Hst; [done|].
  rewrite exec_run_cons. by apply IH, step_ids_ok.
Qed.

(** ** Accessors after the cache was written *)

Lemma eval_accessors (settingName : string) (st : State) :
  eval (GetBoolValue settingName) st
  = default false (m_settings st !! settingName ≫= as_CSettingBool)
  ∧ eval (GetIntValue settingName) st
    = default (-1) (m_settings st !! settingName ≫= as_CSettingInt)
  ∧ eval (GetStringValue settingName) st
    = default "" (m_settings st !! settingName ≫= as_CSettingString).
Proof.
  unfold GetBoolValue, GetIntValue, GetStringValue.
  rewrite !eval_bind. unfold get_m_settings, eval, exec. simpl.
  destruct (m_settings st !! settingName) as [[]|]; done.
Qed.

Lemma Clone_as (id : string) (s : CSetting) :
  as_CSettingBool (Clone id s) = as_CSettingBool s
  ∧ as_CSettingInt (Clone id s) = as_CSettingInt s
  ∧ as_CSettingString (Clone id s) = as_CSettingString s.
Proof. by destruct s. Qed.

(** X11: a value delivered by a change notification is what the accessor of
    the matching kind returns for that identifier afterwards, whatever the
    cache held before; the accessors of the other two kinds return their
    defaults. *)
Theorem X11_notified_value_is_read_back (st : State) (s : CSetting) :
  let st' := exec (OnSettingChanged (Some s)) st in
  eval (GetBoolValue (GetId s)) st' = default false (as_CSettingBool s)
  ∧ eval (GetIntValue (GetId s)) st' = default (-1) (as_CSettingInt s)
  ∧ eval (GetStringValue (GetId s)) st' = default "" (as_CSettingString s).
Proof.
  cbv zeta. destruct (eval_accessors (GetId s)
                     (exec (OnSettingChanged (Some s)) st)) as (-> & -> & ->).
  rewrite OnSettingChanged_exec. simpl. rewrite lookup_insert_eq. simpl.
  by destruct s.
Qed.

(** X12: right after construction an accessor returns the registry's value
    for an identifier that was requested and that the registry holds with
    the accessor's kind; for an identifier that was not requested it returns
    the default even when the registry holds a value of that kind. *)
Theorem X12_constructed_cache_serves_registry_values
    (settingNames : gset string) (w : World) (k : string) :
  let st := construct settingNames w in
  eval (GetBoolValue k) st
  = (if decide (k ∈ settingNames)
     then default false (settings w !! k ≫= as_CSettingBool) else false)
  ∧ eval (GetIntValue k) st
    = (if decide (k ∈ settingNames)
       then default (-1) (settings w !! k ≫= as_CSettingInt) else -1)
  ∧ eval (GetStringValue k) st
    = (if decide (k ∈ settingNames)
       then default "" (settings w !! k ≫= as_CSettingString) else "").
Proof.
  cbv zeta. destruct (eval_accessors k (construct settingNames w))
    as (-> & -> & ->).
  rewrite construct_m_settings. case_decide; [|done].
  destruct (settings w !! k) as [s|]; [|done]. simpl.
  by destruct (Clone_as k s) as (-> & -> & ->).
Qed.

(** X13: an accessor never changes the cached entries; it appends exactly one
    "not found or wrong type" message to the log when it falls back to its
    default, and leaves the log as it was when it returns a stored value, so
    a stored [false], [-1] or empty string is told apart from a failed
    lookup by the log.  The message names the identifier as [%s] prints its
    [c_str()], up to the first NUL byte. *)
Theorem X13_accessors_log_on_fallback (settingName : string) (st : State) :
  let fallback {A} := @fallback_log A settingName in
  let entry := m_settings st !! settingName in
  (m_settings (exec (GetBoolValue settingName) st) = m_settings st
   ∧ log (world (exec (GetBoolValue settingName) st))
     = (log (world st) ++ fallback (entry ≫= as_CSettingBool))%list)
  ∧ (m_settings (exec (GetIntValue settingName) st) = m_settings st
     ∧ log (world (exec (GetIntValue settingName) st))
       = (log (world st) ++ fallback (entry ≫= as_CSettingInt))%list)
  ∧ (m_settings (exec (GetStringValue settingName) st) = m_settings st
     ∧ log (world (exec (GetStringValue settingName) st))
       = (log (world st) ++ fallback (entry ≫= as_CSettingString))%list).
Proof.
  cbv zeta. unfold GetBoolValue, GetIntValue, GetStringValue, fallback_log.
  rewrite !exec_bind. unfold get_m_settings, eval, exec. simpl.
  destruct (m_settings st !! settingName) as [[]|]; simpl;
    by rewrite ?app_nil_r.
Qed.

(** ** Change notifications and reloads composed *)

(** X14: of two change notifications for the same identifier the later one
    alone determines the state; notifications for different identifiers can
    be swapped. *)
Theorem X14_notifications_compose (st : State) (s1 s2 : CSetting) :
  (GetId s1 = GetId s2 →
   exec (OnSettingChanged (Some s2)) (exec (OnSettingChanged (Some s1)) st)
   = exec (OnSettingChanged (Some s2)) st)
  ∧ (GetId s1 ≠ GetId s2 →
     exec (OnSettingChanged (Some s2)) (exec (OnSettingChanged (Some s1)) st)
     = exec (OnSettingChanged (Some s1))
         (exec (OnSettingChanged (Some s2)) st)).
Proof.
  rewrite !OnSettingChanged_exec. simpl. split.
  - intros ->. by rewrite insert_insert_eq.
  - intros Hne. by rewrite insert_insert_ne.
Qed.

Lemma X14_notifications_compose_witness :
  GetId (CSettingInt "pvrrecord.marginstart" 5)
  = GetId (CSettingInt "pvrrecord.marginstart" 10)
  ∧ exec (OnSettingChanged (Some (CSettingInt "pvrrecord.marginstart" 10)))
      (exec (OnSettingChanged (Some (CSettingInt "pvrrecord.marginstart" 5)))
         sample_state)
    = exec (OnSettingChanged (Some (CSettingInt "pvrrecord.marginstart" 10)))
        sample_state.
Proof.
  split; [reflexivity|].
  exact (proj1 (X14_notifications_compose sample_state
                  (CSettingInt "pvrrecord.marginstart" 5)
                  (CSettingInt "pvrrecord.marginstart" 10)) eq_refl).
Defined.

(** X15: a bulk reload overrides an earlier change notification: afterwards
    the entry under the notified identifier is the clone of what the registry
    holds there, and it is gone when the registry does not know the
    identifier. *)
Theorem X15_reload_overrides_notification (st : State) (s : CSetting) :
  m_settings (exec OnSettingsLoaded (exec (OnSettingChanged (Some s)) st))
    !! GetId s
  = Clone (GetId s) <$> settings (world st) !! GetId s.
Proof.
  rewrite OnSettingsLoaded_lookup, OnSettingChanged_exec. simpl.
  by rewrite lookup_insert_eq.
Qed.

(** ** Edge cases of the reload *)

Lemma set_begin_end_empty : set_begin_end ∅ = [].
Proof. unfold set_begin_end. by rewrite elements_empty. Qed.

Lemma OnSettingsLoaded_empty (st : State) :
  m_settings st = ∅ → exec OnSettingsLoaded st = st.
Proof.
  intros Hm. rewrite OnSettingsLoaded_exec, Hm, dom_empty_L. unfold Init.
  rewrite set_begin_end_empty. destruct st as [m w]. simpl in Hm.
  by subst m.
Qed.

(** X16: a cache constructed for no identifier is empty and asks and logs
    nothing; and a cache without entries stays without entries, asking and
    logging nothing, over any sequence of bulk reloads and registry changes:
    only a change notification can give it an entry again. *)
Theorem X16_empty_cache_stays_empty :
  (∀ w : World,
     m_settings (construct ∅ w) = ∅
     ∧ lookups (world (construct ∅ w)) = lookups w
     ∧ log (world (construct ∅ w)) = log w)
  ∧ (∀ (st : State) (evs : list Event),
       m_settings st = ∅ →
       Forall (λ ev, ¬ is_notification ev) evs →
       m_settings (exec (run evs) st) = ∅
       ∧ lookups (world (exec (run evs) st)) = lookups (world st)
       ∧ log (world (exec (run evs) st)) = log (world st)).
Proof.
  split.
  - intros w. split.
    + apply map_eq. intros k. rewrite construct_m_settings, lookup_empty.
      by rewrite decide_False by set_solver.
    + rewrite construct_world, set_begin_end_empty. simpl.
      by rewrite !app_nil_r.
  - intros st evs Hm Hevs. revert st Hm.
    induction Hevs as [|ev evs Hev _ IH]; intros st Hm; [done|].
    rewrite exec_run_cons.
    assert (m_settings (exec (step ev) st) = ∅
            ∧ lookups (world (exec (step ev) st)) = lookups (world st)
            ∧ log (world (exec (step ev) st)) = log (world st))
      as (Hm' & <- & <-).
    { destruct ev as [new_settings| |[s|]]; cbn [step].
      - done.
      - by rewrite OnSettingsLoaded_empty.
      - by destruct Hev.
      - done. }
    by apply IH.
Qed.

Lemma X16_empty_cache_stays_empty_witness :
  m_settings (mkState ∅ sample_world) = ∅
  ∧ Forall (λ ev, ¬ is_notification ev)
      [ SettingsLoaded; RegistryChanged reloaded_registry; SettingsLoaded;
        SettingChanged None ]
  ∧ m_settings
      (exec (run [ SettingsLoaded; RegistryChanged reloaded_registry;
                   SettingsLoaded; SettingChanged None ])
         (mkState ∅ sample_world)) = ∅.
Proof.
  assert (Forall (λ ev, ¬ is_notification ev)
            [ SettingsLoaded; RegistryChanged reloaded_registry;
              SettingsLoaded; SettingChanged None ]) as Hevs
    by (repeat constructor; simpl; tauto).
  split; [reflexivity|]. split; [exact Hevs|].
  exact (proj1 (proj2 X16_empty_cache_stays_empty
                  (mkState ∅ sample_world) _ eq_refl Hevs)).
Defined.


(** ** Further properties of the visibility callback *)

(** X18: with the two identifiers distinct, the use-backend-channel-numbers
    setting and the client-priorities setting are never visible together for
    the same number of enabled clients, and one of them is visible exactly
    when at least one client is enabled. *)
Theorem X18_visibility_is_exclusive
    (USEBACKENDCHANNELNUMBERS CLIENTPRIORITIES : string)
    (Hdistinct : USEBACKENDCHANNELNUMBERS ≠ CLIENTPRIORITIES)
    (EnabledClientAmount : Z)
    (condition1 value1 condition2 value2 : string) (data1 data2 : void_ptr)
    (numbers priorities : CSetting) :
  GetId numbers = USEBACKENDCHANNELNUMBERS →
  GetId priorities = CLIENTPRIORITIES →
  let numbers_visible :=
    IsSettingVisible USEBACKENDCHANNELNUMBERS CLIENTPRIORITIES
      EnabledClientAmount condition1 value1 (Some numbers) data1 in
  let priorities_visible :=
    IsSettingVisible USEBACKENDCHANNELNUMBERS CLIENTPRIORITIES
      EnabledClientAmount condition2 value2 (Some priorities) data2 in
  ¬ (numbers_visible = true ∧ priorities_visible = true)
  ∧ ((numbers_visible = true ∨ priorities_visible = true)
     ↔ (1 ≤ EnabledClientAmount)%Z).
Proof.
  intros Hnumbers Hpriorities. cbv zeta. unfold IsSettingVisible.
  rewrite (decide_True _ _ Hnumbers).
  rewrite decide_False by congruence.
  rewrite (decide_True _ _ Hpriorities).
  rewrite !bool_decide_eq_true. lia.
Qed.

Lemma X18_visibility_is_exclusive_witness :
  "pvrmanager.usebackendchannelnumbers" ≠ "pvrmanager.clientpriorities"
  ∧ ¬ (IsSettingVisible "pvrmanager.usebackendchannelnumbers"
         "pvrmanager.clientpriorities" 3 "" ""
         (Some (CSettingBool "pvrmanager.usebackendchannelnumbers" true)) 0%N
       = true
       ∧ IsSettingVisible "pvrmanager.usebackendchannelnumbers"
           "pvrmanager.clientpriorities" 3 "" ""
           (Some (CSettingString "pvrmanager.clientpriorities" "")) 0%N
         = true).
Proof.
  assert ("pvrmanager.usebackendchannelnumbers"
          ≠ "pvrmanager.clientpriorities") as Hdistinct by discriminate.
  split; [exact Hdistinct|].
  exact (proj1 (X18_visibility_is_exclusive _ _ Hdistinct 3 "" "" "" ""
                  0%N 0%N
                  (CSettingBool "pvrmanager.usebackendchannelnumbers" true)
                  (CSettingString "pvrmanager.clientpriorities" "")
                  eq_refl eq_refl)).
Defined.

(** X19: [IsSettingVisible] looks at the identifier of the setting only: two
    settings with the same identifier, of whatever kind and value, are
    visible under the same conditions. *)
Theorem X19_visibility_depends_on_identifier_only
    (USEBACKENDCHANNELNUMBERS CLIENTPRIORITIES : string)
    (EnabledClientAmount : Z)
    (condition1 value1 condition2 value2 : string) (data1 data2 : void_ptr)
    (setting1 setting2 : CSetting) :
  GetId setting1 = GetId setting2 →
  IsSettingVisible USEBACKENDCHANNELNUMBERS CLIENTPRIORITIES
    EnabledClientAmount condition1 value1 (Some setting1) data1
  = IsSettingVisible USEBACKENDCHANNELNUMBERS CLIENTPRIORITIES
      EnabledClientAmount condition2 value2 (Some setting2) data2.
Proof. intros Hid. unfold IsSettingVisible. by rewrite Hid. Qed.

Lemma X19_visibility_depends_on_identifier_only_witness :
  GetId (CSettingBool "pvrmanager.clientpriorities" false)
  = GetId (CSettingInt "pvrmanager.clientpriorities" 7)
  ∧ IsSettingVisible "pvrmanager.usebackendchannelnumbers"
      "pvrmanager.clientpriorities" 2 "a" "b"
      (Some (CSettingBool "pvrmanager.clientpriorities" false)) 0%N
    = IsSettingVisible "pvrmanager.usebackendchannelnumbers"
        "pvrmanager.clientpriorities" 2 "c" "d"
        (Some (CSettingInt "pvrmanager.clientpriorities" 7)) 1%N.
Proof.
  split; [reflexivity|].
  exact (X19_visibility_depends_on_identifier_only _ _ 2 "a" "b" "c" "d"
           0%N 1%N _ _ eq_refl).
Defined.
